(** * mutagen/_tags.py: padding policy and the abstract tag contract

    A shallow embedding of [PaddingInfo], [Tags] and [Metadata] as they are
    written in [mutagen/_tags.py], and the properties of the padding
    arithmetic and of the abstract load/save/delete contract.

    Python integers are unbounded, so they are [Z].  [a // b] is floor
    division and [a % b] takes the sign of the divisor: for a non-zero
    divisor these are [Z.div] and [Z.modulo]; a zero divisor raises
    [ZeroDivisionError]. *)

From Stdlib Require Import ZArith Lia List Bool.
From Stdlib Require Import Ascii Decimal DecimalString DecimalZ DecimalPos.
From stdpp Require Import base gmap strings.

Local Open Scope string_scope.
Local Open Scope list_scope.
Local Open Scope Z_scope.

(** ** Python outcomes *)

Module Py.

(** The exceptions that the modelled code raises itself, and [Other] for
    whatever a callback or an override may raise. *)
Inductive exn : Type :=
| ValueError (msg : string)
| ZeroDivisionError
| NotImplementedError
| Other (name : string).

Inductive outcome (A : Type) : Type :=
| Returns (a : A)
| Raises (e : exn).

Arguments Returns {A} a.
Arguments Raises {A} e.

(** Integer operations of the padding arithmetic, as they are carried
    out. *)
Inductive op : Type :=
| OpSub (a b : Z)
| OpAdd (a b : Z)
| OpMod (a b : Z).

(** A computation yields the operations it carried out, in order, and its
    outcome. *)
Definition traced (A : Type) : Type := (list op * outcome A)%type.

Definition ret {A} (a : A) : traced A := ([], Returns a).

Definition raise {A} (e : exn) : traced A := ([], Raises e).

Definition bind {A B} (m : traced A) (k : A -> traced B) : traced B :=
  match m with
  | (t, Returns a) => let '(t', r) := k a in (t ++ t', r)
  | (t, Raises e) => (t, Raises e)
  end.

Definition outcome_of {A} (m : traced A) : outcome A := snd m.

(** [a - b] *)
Definition py_sub (a b : Z) : traced Z := ([OpSub a b], Returns (a - b)).

(** [a + b] *)
Definition py_add (a b : Z) : traced Z := ([OpAdd a b], Returns (a + b)).

(** [a % b] *)
Definition py_mod (a b : Z) : traced Z :=
  ([OpMod a b], if b =? 0 then Raises ZeroDivisionError else Returns (a mod b)).

(** [a // b] for a literal non-zero [b]. *)
Definition py_floordiv (a b : Z) : Z := a / b.

End Py.

Import Py.

Notation "x <- m ;; k" := (Py.bind m (fun x => k))
  (at level 100, m at next level, right associativity, only parsing).

(** ** PaddingInfo *)

Module PaddingInfo.

(** The attributes [__init__] sets.  [padding] and [size] are the
    back-compat attributes, stored next to the canonical ones. *)
Record t : Type := mk {
  size_diff : Z;
  new_tail_size : Z;
  new_head_size : option Z;
  fs_block_size : option Z;
  padding : Z;
  size : Z
}.

(** [__init__(self, padding, new_tail_size, new_head_size=None,
    fs_block_size=None)]: each attribute is computed from the ones
    assigned before it, as in the source. *)
Definition __init__ (padding_arg new_tail_size_arg : Z)
    (new_head_size_arg fs_block_size_arg : option Z) : t :=
  let self_size_diff := - padding_arg in
  let self_new_tail_size := new_tail_size_arg in
  let self_new_head_size := new_head_size_arg in
  let self_fs_block_size := fs_block_size_arg in
  let self_padding := - self_size_diff in
  let self_size := self_new_tail_size in
  mk self_size_diff self_new_tail_size self_new_head_size
     self_fs_block_size self_padding self_size.

Definition get_padding_for_sharing (self : t) : Z :=
  let high := 1024 * 10 + py_floordiv (size self) 100 in
  let low := 1024 + py_floordiv (size self) 1000 in
  if padding self >=? 0 then
    if padding self >? high then low
    else padding self
  else low.

Definition get_default_padding (self : t) : Z :=
  get_padding_for_sharing self.

Definition get_padding_for_storage (self : t) : traced Z :=
  match new_head_size self with
  | None => raise (ValueError "get_padding_for_storage requires new_head_size")
  | Some nhs =>
    match fs_block_size self with
    | None => raise (ValueError "get_padding_for_storage requries fs_block_size")
    | Some fbs =>
      old_head_size <- py_sub nhs (size_diff self) ;;
      old_align <- py_mod old_head_size fbs ;;
      m <- py_mod nhs fbs ;;
      res <- py_sub fbs m ;;
      res <- py_add res old_align ;;
      py_mod res fbs
    end
  end.

(** [_get_padding(self, user_func)].  A callback is arbitrary user code:
    it is handed the object, may change the world around it, and returns
    or raises. *)
Section Resolve.

Context {World : Type}.

Definition callback : Type := t -> World -> outcome Z * World.

Definition _get_padding (self : t) (user_func : option callback)
    (w : World) : outcome Z * World :=
  match user_func with
  | None => (Returns (get_default_padding self), w)
  | Some f => f self w
  end.

End Resolve.

(** [%d] of an integer: its decimal digits, after a minus sign when it is
    negative. *)
Definition format_d (z : Z) : string :=
  NilZero.string_of_int (Z.to_int z).

(** [__repr__(self)]: the format [<%s size=%d padding=%d>], filled with
    the name of the object's class and the two back-compat attributes. *)
Definition __repr__ (type_name : string) (self : t) : string :=
  "<" +:+ type_name +:+ " size=" +:+ format_d (size self) +:+
  " padding=" +:+ format_d (padding self) +:+ ">".

End PaddingInfo.

(** ** Objects, calls and methods *)

Module Obj.

(** The values that are passed as a source or as an option. *)
Inductive value : Type :=
| VNone
| VInt (z : Z)
| VStr (s : string)
| VFile (name : string).

(** Positional and keyword arguments of a call. *)
Definition args : Type := list value.
Abbreviation kwargs := (gmap string value).

(** What a method call can change: the attributes of the instance it is
    called on, and the files opened so far. *)
Record state : Type := mkstate {
  attrs : gmap string value;
  opened : list string
}.

Definition method (A : Type) : Type := state -> outcome A * state.

(** Truth value of a tuple and of a dict: non-empty. *)
Definition truthy_args (a : args) : bool :=
  match a with [] => false | _ :: _ => true end.

Definition truthy_kwargs (k : kwargs) : bool := bool_decide (k <> ∅).

(** A function of [self], a [filething] and keyword options, once its
    arguments are bound, and what a decorator makes of it: a method
    called with any positional and keyword arguments. *)
Definition body (A : Type) : Type := value -> kwargs -> method A.
Definition wrapper (A : Type) : Type := args -> kwargs -> method A.

(** [loadfile(...)]: the decorator factory, given whether and how
    [writable=] was passed. *)
Definition decorator : Type :=
  option bool -> forall A : Type, body A -> wrapper A.

(** What a file-opening decorator has done when the wrapped function is
    due: it has failed, or it hands over a source, the options that are
    left and the state it leaves. *)
Inductive handover : Type :=
| Rejects (e : exn) (st : state)
| HandsOver (src : value) (k : kwargs) (st : state).

Definition opener : Type :=
  option bool -> args -> kwargs -> state -> handover.

(** The decorator made of an opener: when the opener fails the call
    fails with its error and the wrapped function does not run; otherwise
    the wrapped function runs on what is handed over, and the call ends
    as it ends. *)
Definition decorate (o : opener) : decorator :=
  fun writable A f a k st =>
    match o writable a k st with
    | Rejects e st' => (Raises e, st')
    | HandsOver src k' st' => f src k' st'
    end.

(** The decorator [loadfile] lives in [mutagen/_util.py], outside
    [_tags.py].  It is described here by what a call through it shows.
    The source is the first positional argument, or else the keyword
    [filename] or [fileobj], which are taken out of the options.  Unless
    the method is writable, the file name of the call, [None] when there
    is none, is assigned to the attribute [filename] of the instance; a
    writable method falls back on that attribute.  A call that names no
    source fails with [TypeError]; a value that is neither a path nor a
    file fails with [ValueError]; a path that cannot be opened fails with
    [MutagenError]; otherwise the wrapped function runs on the open
    file.  [can_open] tells which paths can be opened; the errors of the
    decorator are given by their names. *)
Definition openfile (can_open : string -> bool) : opener :=
  fun writable a k st =>
    let filething := hd VNone a in
    let filename := default VNone (k !! "filename") in
    let fileobj := default VNone (k !! "fileobj") in
    let k' := delete "fileobj" (delete "filename" k) in
    let '(filename, fileobj) :=
      match filething with
      | VNone => (filename, fileobj)
      | VStr _ => (filething, fileobj)
      | _ => (filename, filething)
      end in
    let '(filename, st1) :=
      match writable with
      | Some true =>
        (match filename with
         | VNone => default VNone (attrs st !! "filename")
         | _ => filename
         end, st)
      | _ => (filename, mkstate (<["filename" := filename]> (attrs st)) (opened st))
      end in
    match fileobj with
    | VFile name => HandsOver (VFile name) k' st1
    | VNone =>
      match filename with
      | VStr path =>
        if can_open path
        then HandsOver (VFile path) k' (mkstate (attrs st1) (path :: opened st1))
        else Rejects (Other "MutagenError") st1
      | VNone => Rejects (Other "TypeError") st1
      | _ => Rejects (Other "ValueError") st1
      end
    | _ => Rejects (Other "ValueError") st1
    end.

Definition loadfile (can_open : string -> bool) : decorator :=
  decorate (openfile can_open).

End Obj.

Import Obj.

(** ** Tags *)

Module Tags.

Definition pprint : method string :=
  fun st => (Raises NotImplementedError, st).

End Tags.

(** ** Metadata *)

Module Metadata.

(** The methods an instance answers to; a format overrides them. *)
Record vtable : Type := mkvtable {
  pprint : method string;
  load : wrapper unit;
  save : wrapper unit;
  delete : wrapper unit
}.

(** [__init__] takes any positional and keyword arguments; [self.load]
    is looked up on the instance, so an override is the one that runs. *)
Definition __init__ (self : vtable) (a : args) (k : kwargs) : method unit :=
  if truthy_args a || truthy_kwargs k then load self a k
  else fun st => (Returns tt, st).

(** Bodies of the decorated methods of the base class: [load] and [save]
    take a [filething] and keyword options, [delete] a [filething] only
    (its second argument is there for the decorator's type and is not
    read).  None of them reads or assigns an attribute. *)
Definition load_body : body unit :=
  fun filething k st => (Raises NotImplementedError, st).

Definition save_body : body unit :=
  fun filething k st => (Raises NotImplementedError, st).

Definition delete_body : body unit :=
  fun filething k st => (Raises NotImplementedError, st).

(** The base class: [pprint] is inherited from [Tags]; [load] is
    decorated with [loadfile()], [save] and [delete] with
    [loadfile(writable=False)]. *)
Definition base (loadfile : decorator) : vtable :=
  mkvtable Tags.pprint
           (loadfile None unit load_body)
           (loadfile (Some false) unit save_body)
           (loadfile (Some false) unit delete_body).

(** Calling the class: a fresh instance, with no attribute, is
    initialised with the arguments of the call. *)
Definition construct (cls : vtable) (a : args) (k : kwargs)
    (files : list string) : outcome unit * state :=
  __init__ cls a k (mkstate ∅ files).

End Metadata.

(** ** Notions used to state the properties *)

(** The amount the specification gives for the storage strategy. *)
Definition storage_amount (nhs fbs sd : Z) : Z :=
  ((fbs - (nhs mod fbs)) + ((nhs - sd) mod fbs)) mod fbs.

(** Whether an error message names a field. *)
Definition names_field (msg field : string) : bool :=
  match String.index 0 field msg with
  | Some _ => true
  | None => false
  end.

(** A callback that, besides what it does, records the argument of each of
    its invocations. *)
Definition logged {World} (f : PaddingInfo.callback (World := World)) :
    PaddingInfo.callback (World := World * list PaddingInfo.t) :=
  fun self '(w, calls) =>
    let '(r, w') := f self w in (r, (w', calls ++ [self])).

(** A string in which a character does not occur. *)
Fixpoint avoids (c : ascii) (s : string) : Prop :=
  match s with
  | EmptyString => True
  | String c' s' => c' <> c /\ avoids c s'
  end.

(** Callbacks for the examples: one counts its invocations in the world
    and returns a negative amount, one raises. *)
Definition negative_callback : PaddingInfo.callback (World := nat) :=
  fun self n => (Returns (-5), S n).

Definition raising_callback : PaddingInfo.callback (World := nat) :=
  fun self n => (Raises (Other "RuntimeError"), n).

(** A format for the examples: its [load] keeps the source it was given in
    the attribute [source]. *)
Definition example_format : Metadata.vtable :=
  Metadata.mkvtable
    Tags.pprint
    (loadfile (fun _ => true) None unit
       (fun src k st =>
          (Returns tt, mkstate (<["source" := src]> (attrs st)) (opened st))))
    (Metadata.save (Metadata.base (loadfile (fun _ => true))))
    (Metadata.delete (Metadata.base (loadfile (fun _ => true)))).

(** * Properties *)

(** ** The constructor *)

Section Constructor.

Import PaddingInfo.

Variables (padding_arg new_tail_size_arg : Z).
Variables (new_head_size_arg fs_block_size_arg : option Z).

Let self :=
  __init__ padding_arg new_tail_size_arg new_head_size_arg fs_block_size_arg.

Lemma init_padding : padding self = padding_arg.
Proof. unfold self, __init__; simpl. lia. Qed.

Lemma init_size : size self = new_tail_size_arg.
Proof. reflexivity. Qed.

Lemma init_optional :
  new_head_size self = new_head_size_arg /\
  fs_block_size self = fs_block_size_arg.
Proof. split; reflexivity. Qed.

(** C9: on a constructed [PaddingInfo] the canonical attributes and the
    back-compat ones agree: [size_diff] is the negated [padding]
    (argument and attribute alike), [padding] is the negated [size_diff],
    and [size] is [new_tail_size]. *)
Theorem init_views_agree :
  size_diff self = - padding_arg /\
  size_diff self = - padding self /\
  padding self = - size_diff self /\
  size self = new_tail_size self /\
  new_tail_size self = new_tail_size_arg.
Proof.
  pose proof init_padding as Hp.
  unfold self, __init__ in *; simpl in *.
  repeat split; lia.
Qed.

End Constructor.

(** ** The sharing strategy *)

Section Sharing.

Import PaddingInfo.

(** What the function computes, on the back-compat attributes it
    reads. *)
Lemma sharing_cases (p : t) :
  let high := 10240 + size p / 100 in
  let low := 1024 + size p / 1000 in
  get_padding_for_sharing p =
    if (0 <=? padding p) && (padding p <=? high) then padding p else low.
Proof.
  unfold get_padding_for_sharing, py_floordiv; simpl.
  change (1024 * 10) with 10240.
  destruct (Z.geb_spec (padding p) 0) as [Hge|Hlt].
  - destruct (Z.gtb_spec (padding p) (10240 + size p / 100)) as [Hgt|Hle].
    + rewrite (proj2 (Z.leb_le 0 (padding p))) by lia.
      rewrite (proj2 (Z.leb_gt (padding p) _)) by lia. reflexivity.
    + rewrite (proj2 (Z.leb_le 0 (padding p))) by lia.
      rewrite (proj2 (Z.leb_le (padding p) _)) by lia. reflexivity.
  - rewrite (proj2 (Z.leb_gt 0 (padding p))) by lia. reflexivity.
Qed.

Lemma low_positive (n : Z) : 0 <= n -> 1024 <= 1024 + n / 1000.
Proof. intros Hn. pose proof (Z.div_pos n 1000 Hn). lia. Qed.

(** C1: with [padding_before = - size_diff], [high = 10240 +
    new_tail_size // 100] and [low = 1024 + new_tail_size // 1000], the
    sharing strategy returns [padding_before] when [0 <= padding_before
    <= high] (so also at [padding_before = high]) and [low] otherwise; the
    result is never negative; and the three vectors of the specification
    give 500, 1025 and 1024. *)
Theorem sharing_padding (sd nts : Z) (nhs fbs : option Z) :
  0 <= nts ->
  let self := __init__ (- sd) nts nhs fbs in
  let padding_before := - sd in
  let high := 10240 + nts / 100 in
  let low := 1024 + nts / 1000 in
  size_diff self = sd /\
  new_tail_size self = nts /\
  (0 <= padding_before <= high ->
     get_padding_for_sharing self = padding_before) /\
  (padding_before = high -> get_padding_for_sharing self = padding_before) /\
  (padding_before < 0 \/ padding_before > high ->
     get_padding_for_sharing self = low) /\
  0 <= get_padding_for_sharing self /\
  get_padding_for_sharing (__init__ (- -500) 200 nhs fbs) = 500 /\
  get_padding_for_sharing (__init__ (- -70000) 1000 nhs fbs) = 1025 /\
  get_padding_for_sharing (__init__ (- 300) 100 nhs fbs) = 1024.
Proof.
  intros Hnts self padding_before high low.
  pose proof (sharing_cases self) as Hc. cbv zeta in Hc.
  assert (Hp : padding self = padding_before)
    by apply (init_padding (- sd) nts nhs fbs).
  assert (Hs : size self = nts) by apply (init_size (- sd) nts nhs fbs).
  rewrite Hp, Hs in Hc. fold high low in Hc.
  pose proof (low_positive nts Hnts) as Hlow. fold low in Hlow.
  pose proof (Z.div_pos nts 100 Hnts ltac:(lia)) as Hhigh.
  assert (Hin : 0 <= padding_before <= high ->
                get_padding_for_sharing self = padding_before).
  { intros [H0 H1]. rewrite Hc.
    rewrite (proj2 (Z.leb_le 0 padding_before)) by lia.
    rewrite (proj2 (Z.leb_le padding_before high)) by lia. reflexivity. }
  assert (Hout : padding_before < 0 \/ padding_before > high ->
                 get_padding_for_sharing self = low).
  { intros [H|H]; rewrite Hc.
    - rewrite (proj2 (Z.leb_gt 0 padding_before)) by lia. reflexivity.
    - rewrite (proj2 (Z.leb_gt padding_before high)) by lia.
      rewrite andb_false_r. reflexivity. }
  split; [unfold self, __init__; simpl; lia|].
  split; [reflexivity|].
  split; [exact Hin|].
  split; [intros Heq; apply Hin; unfold high in *; lia|].
  split; [exact Hout|].
  split.
  { destruct (Z_lt_le_dec padding_before 0) as [Hneg|Hpos].
    - rewrite Hout by lia. lia.
    - destruct (Z_le_gt_dec padding_before high) as [Hle|Hgt].
      + rewrite Hin by lia. lia.
      + rewrite Hout by lia. lia. }
  repeat split; reflexivity.
Qed.

Lemma sharing_padding_witness :
  0 <= 200 /\ PaddingInfo.get_padding_for_sharing
                (PaddingInfo.__init__ (- -10242) 200 None None) = 10242.
Proof.
  split; [lia|].
  apply (sharing_padding (-10242) 200 None None); [lia|reflexivity].
Defined.

End Sharing.

(** ** The storage strategy *)

Section Storage.

Import PaddingInfo.

Variable p : t.

Lemma storage_no_head :
  new_head_size p = None ->
  get_padding_for_storage p =
    ([], Raises (ValueError "get_padding_for_storage requires new_head_size")).
Proof. intros H. unfold get_padding_for_storage. rewrite H. reflexivity. Qed.

Lemma storage_no_block (nhs : Z) :
  new_head_size p = Some nhs ->
  fs_block_size p = None ->
  get_padding_for_storage p =
    ([], Raises (ValueError "get_padding_for_storage requries fs_block_size")).
Proof.
  intros H1 H2. unfold get_padding_for_storage. rewrite H1, H2. reflexivity.
Qed.

(** With both fields present and a non-zero block size the six
    operations of the source run, in order. *)
Lemma storage_runs (nhs fbs : Z) :
  new_head_size p = Some nhs ->
  fs_block_size p = Some fbs ->
  fbs <> 0 ->
  get_padding_for_storage p =
    ([OpSub nhs (size_diff p);
      OpMod (nhs - size_diff p) fbs;
      OpMod nhs fbs;
      OpSub fbs (nhs mod fbs);
      OpAdd (fbs - nhs mod fbs) ((nhs - size_diff p) mod fbs);
      OpMod (fbs - nhs mod fbs + (nhs - size_diff p) mod fbs) fbs],
     Returns (storage_amount nhs fbs (size_diff p))).
Proof.
  intros H1 H2 Hz. unfold get_padding_for_storage, storage_amount.
  rewrite H1, H2. unfold py_sub, py_mod, py_add, bind.
  rewrite (proj2 (Z.eqb_neq fbs 0) Hz). reflexivity.
Qed.

(** A zero block size stops at the first remainder. *)
Lemma storage_zero_block (nhs : Z) :
  new_head_size p = Some nhs ->
  fs_block_size p = Some 0 ->
  get_padding_for_storage p =
    ([OpSub nhs (size_diff p); OpMod (nhs - size_diff p) 0],
     Raises ZeroDivisionError).
Proof.
  intros H1 H2. unfold get_padding_for_storage. rewrite H1, H2. reflexivity.
Qed.

(** C2: with [new_head_size] and a positive [fs_block_size] present, the
    storage strategy returns [((fs_block_size - new_head_size mod
    fs_block_size) + (new_head_size - size_diff) mod fs_block_size) mod
    fs_block_size], each remainder being the non-negative one; block
    size 4096, head size 5000 and size difference -200 give 200. *)
Theorem storage_padding_value (nhs fbs : Z) :
  new_head_size p = Some nhs ->
  fs_block_size p = Some fbs ->
  0 < fbs ->
  outcome_of (get_padding_for_storage p) =
    Returns (((fbs - (nhs mod fbs)) + ((nhs - size_diff p) mod fbs)) mod fbs) /\
  0 <= nhs mod fbs < fbs /\
  0 <= (nhs - size_diff p) mod fbs < fbs /\
  (forall nts,
     outcome_of (get_padding_for_storage
                   (__init__ (- -200) nts (Some 5000) (Some 4096))) =
       Returns 200).
Proof.
  intros H1 H2 Hpos.
  rewrite (storage_runs nhs fbs H1 H2) by lia.
  split; [reflexivity|].
  split; [apply Z.mod_pos_bound; exact Hpos|].
  split; [apply Z.mod_pos_bound; exact Hpos|].
  intros nts. reflexivity.
Qed.

(** C3: with [new_head_size] present and [fs_block_size] present and
    positive, whatever the size difference, the storage strategy returns
    a value in [[0, fs_block_size)]. *)
Theorem storage_padding_range (nhs fbs : Z) :
  new_head_size p = Some nhs ->
  fs_block_size p = Some fbs ->
  0 < fbs ->
  exists r,
    outcome_of (get_padding_for_storage p) = Returns r /\ 0 <= r < fbs.
Proof.
  intros H1 H2 Hpos.
  exists (storage_amount nhs fbs (size_diff p)). split.
  - rewrite (storage_runs nhs fbs H1 H2) by lia. reflexivity.
  - unfold storage_amount. apply Z.mod_pos_bound. exact Hpos.
Qed.

(** C4: the storage strategy raises [ValueError] exactly when
    [new_head_size] or [fs_block_size] is absent; the message names the
    absent field ([new_head_size] when both are), no operation of the
    computation has been carried out and nothing is returned; with both
    present the outcome is a value or, for a zero block size, a
    [ZeroDivisionError], never a [ValueError]. *)
Theorem storage_configuration_error :
  ((exists msg,
      outcome_of (get_padding_for_storage p) = Raises (ValueError msg)) <->
   (new_head_size p = None \/ fs_block_size p = None)) /\
  (new_head_size p = None \/ fs_block_size p = None ->
   exists msg field,
     get_padding_for_storage p = ([], Raises (ValueError msg)) /\
     names_field msg field = true /\
     ((field = "new_head_size" /\ new_head_size p = None) \/
      (field = "fs_block_size" /\ fs_block_size p = None))) /\
  (forall nhs fbs,
     new_head_size p = Some nhs -> fs_block_size p = Some fbs ->
     (fbs <> 0 /\
      outcome_of (get_padding_for_storage p) =
        Returns (storage_amount nhs fbs (size_diff p))) \/
     (fbs = 0 /\
      outcome_of (get_padding_for_storage p) = Raises ZeroDivisionError)).
Proof.
  assert (Habsent : new_head_size p = None \/ fs_block_size p = None ->
    exists msg field,
      get_padding_for_storage p = ([], Raises (ValueError msg)) /\
      names_field msg field = true /\
      ((field = "new_head_size" /\ new_head_size p = None) \/
       (field = "fs_block_size" /\ fs_block_size p = None))).
  { intros Hab. destruct (new_head_size p) as [nhs|] eqn:Hh.
    - destruct Hab as [Hab|Hab]; [discriminate|].
      eexists; exists "fs_block_size".
      split; [apply (storage_no_block nhs Hh Hab)|].
      split; [reflexivity|]. right. split; [reflexivity|exact Hab].
    - eexists; exists "new_head_size".
      split; [apply (storage_no_head Hh)|].
      split; [reflexivity|]. left. split; reflexivity. }
  assert (Hpresent : forall nhs fbs,
     new_head_size p = Some nhs -> fs_block_size p = Some fbs ->
     (fbs <> 0 /\
      outcome_of (get_padding_for_storage p) =
        Returns (storage_amount nhs fbs (size_diff p))) \/
     (fbs = 0 /\
      outcome_of (get_padding_for_storage p) = Raises ZeroDivisionError)).
  { intros nhs fbs H1 H2. destruct (Z.eq_dec fbs 0) as [Hz|Hnz].
    - right. split; [exact Hz|]. subst fbs.
      rewrite (storage_zero_block nhs H1 H2). reflexivity.
    - left. split; [exact Hnz|].
      rewrite (storage_runs nhs fbs H1 H2 Hnz). reflexivity. }
  split; [|split; [exact Habsent|exact Hpresent]].
  split.
  - intros [msg Hmsg].
    destruct (new_head_size p) as [nhs|] eqn:Hh; [|left; reflexivity].
    destruct (fs_block_size p) as [fbs|] eqn:Hb; [|right; reflexivity].
    destruct (Hpresent nhs fbs eq_refl eq_refl) as [[_ Hr]|[_ Hr]];
      rewrite Hr in Hmsg; discriminate.
  - intros Hab. destruct (Habsent Hab) as (msg & field & Hrun & _).
    exists msg. rewrite Hrun. reflexivity.
Qed.

End Storage.

Lemma storage_padding_value_witness :
  0 < 4096 /\
  outcome_of (PaddingInfo.get_padding_for_storage
                (PaddingInfo.__init__ 200 77 (Some 5000) (Some 4096))) =
    Returns 200.
Proof.
  split; [lia|].
  apply (storage_padding_value
           (PaddingInfo.__init__ 200 77 (Some 5000) (Some 4096)) 5000 4096);
    [reflexivity|reflexivity|lia].
Defined.

Lemma storage_padding_range_witness :
  0 < 512 /\
  exists r,
    outcome_of (PaddingInfo.get_padding_for_storage
                  (PaddingInfo.__init__ 100000 0 (Some 3) (Some 512))) =
      Returns r /\ 0 <= r < 512.
Proof.
  split; [lia|].
  apply (storage_padding_range
           (PaddingInfo.__init__ 100000 0 (Some 3) (Some 512)) 3 512);
    [reflexivity|reflexivity|lia].
Defined.

Lemma storage_configuration_error_witness :
  PaddingInfo.fs_block_size (PaddingInfo.__init__ 0 0 (Some 8) None) = None /\
  exists msg,
    outcome_of (PaddingInfo.get_padding_for_storage
                  (PaddingInfo.__init__ 0 0 (Some 8) None)) =
      Raises (ValueError msg).
Proof.
  split; [reflexivity|].
  apply (proj2 (proj1 (storage_configuration_error
                         (PaddingInfo.__init__ 0 0 (Some 8) None)))).
  right. reflexivity.
Defined.

(** ** Resolving the strategy *)

Section Resolution.

Import PaddingInfo.

Context {World : Type}.

Variable p : t.

(** C5: resolving with no user function returns what
    [get_default_padding] returns, which is what
    [get_padding_for_sharing] returns, and leaves the world as it is. *)
Theorem default_resolution (w : World) :
  _get_padding p None w = (Returns (get_default_padding p), w) /\
  get_default_padding p = get_padding_for_sharing p /\
  _get_padding p None w = (Returns (get_padding_for_sharing p), w).
Proof. repeat split. Qed.

(** C6: resolving with a user function [f] is one run of [f] on the
    object: [f] is invoked exactly once, with the object as its argument;
    what it returns is returned as it is, whatever the value; what it
    raises is raised as it is. *)
Theorem user_strategy_unmodified (f : callback) (w : World) :
  _get_padding p (Some f) w = f p w /\
  (forall calls,
     _get_padding p (Some (logged f)) (w, calls) =
       (fst (f p w), (snd (f p w), calls ++ [p]))) /\
  (forall v w', f p w = (Returns v, w') ->
     _get_padding p (Some f) w = (Returns v, w')) /\
  (forall e w', f p w = (Raises e, w') ->
     _get_padding p (Some f) w = (Raises e, w')).
Proof.
  split; [reflexivity|].
  split; [|split; intros ? ? H; exact H].
  intros calls. simpl. unfold logged. destruct (f p w); reflexivity.
Qed.

End Resolution.

Lemma user_strategy_unmodified_witness :
  negative_callback (PaddingInfo.__init__ 0 0 None None) 0%nat =
    (Returns (-5), 1%nat) /\
  PaddingInfo._get_padding (PaddingInfo.__init__ 0 0 None None)
    (Some negative_callback) 0%nat = (Returns (-5), 1%nat).
Proof.
  split; [reflexivity|].
  apply (proj1 (proj2 (proj2 (user_strategy_unmodified
           (PaddingInfo.__init__ 0 0 None None) negative_callback 0%nat)))).
  reflexivity.
Defined.

Example raising_callback_propagates :
  PaddingInfo._get_padding (PaddingInfo.__init__ 0 0 None None)
    (Some raising_callback) 7%nat = (Raises (Other "RuntimeError"), 7%nat).
Proof. reflexivity. Qed.

(** ** The abstract contract *)

Lemma truthy_kwargs_empty : truthy_kwargs ∅ = false.
Proof. unfold truthy_kwargs. apply bool_decide_eq_false_2. auto. Qed.


(** C8: constructing with no argument succeeds, whatever the methods of
    the class are: the instance has no attribute and no file has been
    opened. *)
Theorem construct_without_source (cls : Metadata.vtable)
    (files : list string) :
  Metadata.construct cls [] ∅ files = (Returns tt, mkstate ∅ files).
Proof.
  unfold Metadata.construct, Metadata.__init__.
  rewrite truthy_kwargs_empty. reflexivity.
Qed.





Section BaseContract.

Variable o : opener.

Local Abbreviation base := (Metadata.base (decorate o)).



End BaseContract.



(** A format that overrides [load]: constructing with a path runs the
    override, constructing with nothing does not; a path that cannot be
    opened stops the construction in the decorator. *)
Example example_format_loads :
  Metadata.construct example_format [VStr "a.ogg"] ∅ [] =
    (Returns tt,
     mkstate (<["source" := VFile "a.ogg"]>
                (<["filename" := VStr "a.ogg"]> ∅)) ["a.ogg"]).
Proof. reflexivity. Qed.

Example example_format_empty :
  Metadata.construct example_format [] ∅ [] = (Returns tt, mkstate ∅ []).
Proof. reflexivity. Qed.

Example base_load_unreadable :
  Metadata.load (Metadata.base (loadfile (fun _ => false))) [VStr "a.ogg"] ∅
    (mkstate ∅ []) =
    (Raises (Other "MutagenError"),
     mkstate (<["filename" := VStr "a.ogg"]> ∅) []).
Proof. reflexivity. Qed.

Example base_delete_by_keyword :
  Metadata.delete (Metadata.base (loadfile (fun _ => true))) []
    (<["fileobj" := VFile "f"]> ∅) (mkstate ∅ []) =
    (Raises NotImplementedError, mkstate (<["filename" := VNone]> ∅) []).
Proof. reflexivity. Qed.

(** * Further properties of the padding strategies *)

(** ** What the storage strategy computes *)

(** The three remainders of the source collapse to one. *)
Lemma storage_amount_closed (nhs fbs sd : Z) :
  storage_amount nhs fbs sd = (- sd) mod fbs.
Proof.
  unfold storage_amount. rewrite Zplus_mod_idemp_r.
  replace (fbs - nhs mod fbs + (nhs - sd))
    with ((fbs + nhs - sd) - nhs mod fbs) by lia.
  rewrite Zminus_mod_idemp_r.
  replace (fbs + nhs - sd - nhs) with (- sd + 1 * fbs) by lia.
  apply Z_mod_plus_full.
Qed.

Section StorageAlignment.

Import PaddingInfo.

Variables (p : t) (nhs fbs : Z).

Hypothesis Hhead : new_head_size p = Some nhs.
Hypothesis Hblock : fs_block_size p = Some fbs.

Lemma storage_returns_closed :
  fbs <> 0 ->
  outcome_of (get_padding_for_storage p) = Returns ((- size_diff p) mod fbs).
Proof.
  intros Hz. rewrite (storage_runs p nhs fbs Hhead Hblock Hz).
  simpl. rewrite storage_amount_closed. reflexivity.
Qed.

(** X1: for a non-zero block size the storage strategy returns the
    negated size difference modulo the block size; the head size, once
    present, has no influence on the amount. *)
Theorem storage_ignores_head_size :
  fbs <> 0 ->
  outcome_of (get_padding_for_storage p) = Returns ((- size_diff p) mod fbs) /\
  (forall q nhs',
     new_head_size q = Some nhs' ->
     fs_block_size q = Some fbs ->
     size_diff q = size_diff p ->
     outcome_of (get_padding_for_storage q) =
       outcome_of (get_padding_for_storage p)).
Proof.
  intros Hz. split; [exact (storage_returns_closed Hz)|].
  intros q nhs' Hq1 Hq2 Hsd.
  rewrite (storage_returns_closed Hz).
  rewrite (storage_runs q nhs' fbs Hq1 Hq2 Hz). simpl.
  rewrite storage_amount_closed, Hsd. reflexivity.
Qed.

(** X2: the data that follows the padding keeps its offset within a
    block: the new head size plus the returned padding is congruent,
    modulo the block size, to the old head size. *)
Theorem storage_preserves_offset :
  fbs <> 0 ->
  exists r,
    outcome_of (get_padding_for_storage p) = Returns r /\
    (nhs + r) mod fbs = (nhs - size_diff p) mod fbs.
Proof.
  intros Hz. exists ((- size_diff p) mod fbs).
  split; [exact (storage_returns_closed Hz)|].
  rewrite Zplus_mod_idemp_r. f_equal.
Qed.

(** X3: for a positive block size the returned padding is the least
    non-negative amount that keeps that offset: it is not negative, it
    keeps the offset, and every non-negative amount that keeps the offset
    is at least as large. *)
Theorem storage_least_padding :
  0 < fbs ->
  exists r,
    outcome_of (get_padding_for_storage p) = Returns r /\
    0 <= r /\
    (nhs + r) mod fbs = (nhs - size_diff p) mod fbs /\
    (forall r',
       0 <= r' ->
       (nhs + r') mod fbs = (nhs - size_diff p) mod fbs ->
       r <= r').
Proof.
  intros Hpos. exists ((- size_diff p) mod fbs).
  split; [apply storage_returns_closed; lia|].
  split; [apply Z.mod_pos_bound; exact Hpos|].
  split; [rewrite Zplus_mod_idemp_r; f_equal|].
  intros r' Hr' Hcong.
  assert (Heq : r' mod fbs = (- size_diff p) mod fbs).
  { replace r' with ((nhs + r') - nhs) at 1 by lia.
    rewrite Zminus_mod, Hcong, <- Zminus_mod. f_equal. lia. }
  rewrite <- Heq. apply Z.mod_le; assumption.
Qed.

(** X4: the storage strategy asks for no padding exactly when the size
    difference is a multiple of the block size, so in particular when the
    size of the metadata did not change. *)
Theorem storage_zero_iff_multiple :
  fbs <> 0 ->
  (outcome_of (get_padding_for_storage p) = Returns 0 <->
   (fbs | size_diff p)) /\
  (size_diff p = 0 ->
   outcome_of (get_padding_for_storage p) = Returns 0).
Proof.
  intros Hz. rewrite (storage_returns_closed Hz).
  assert (Hiff : (- size_diff p) mod fbs = 0 <-> (fbs | size_diff p)).
  { rewrite Z.mod_divide by exact Hz. apply Z.divide_opp_r. }
  split.
  - split.
    + intros H. apply Hiff. congruence.
    + intros H. f_equal. apply Hiff. exact H.
  - intros H0. f_equal. apply Hiff. rewrite H0. apply Z.divide_0_r.
Qed.

(** X5: a negative block size is not rejected: the amount returned is
    then never positive, and stays above the block size. *)
Theorem storage_negative_block :
  fbs < 0 ->
  exists r,
    outcome_of (get_padding_for_storage p) = Returns r /\ fbs < r <= 0.
Proof.
  intros Hneg. exists ((- size_diff p) mod fbs).
  split; [apply storage_returns_closed; lia|].
  apply Z.mod_neg_bound. exact Hneg.
Qed.

End StorageAlignment.

(** X6: on a constructed object the storage strategy returns the padding
    it was constructed with, modulo the block size: a padding smaller
    than one block is kept as it is. *)
Theorem storage_keeps_small_padding (pad nts nhs fbs : Z) :
  fbs <> 0 ->
  outcome_of (PaddingInfo.get_padding_for_storage
                (PaddingInfo.__init__ pad nts (Some nhs) (Some fbs))) =
    Returns (pad mod fbs) /\
  (0 <= pad < fbs ->
   outcome_of (PaddingInfo.get_padding_for_storage
                 (PaddingInfo.__init__ pad nts (Some nhs) (Some fbs))) =
     Returns pad).
Proof.
  intros Hz.
  assert (H : outcome_of (PaddingInfo.get_padding_for_storage
                (PaddingInfo.__init__ pad nts (Some nhs) (Some fbs))) =
              Returns (pad mod fbs)).
  { rewrite (storage_returns_closed
               (PaddingInfo.__init__ pad nts (Some nhs) (Some fbs))
               nhs fbs eq_refl eq_refl Hz).
    simpl. f_equal. f_equal. lia. }
  split; [exact H|].
  intros Hsmall. rewrite H. f_equal. apply Z.mod_small. exact Hsmall.
Qed.

Lemma storage_ignores_head_size_witness :
  4096 <> 0 /\
  outcome_of (PaddingInfo.get_padding_for_storage
                (PaddingInfo.__init__ 200 9 (Some 5000) (Some 4096))) =
    Returns ((- PaddingInfo.size_diff
                  (PaddingInfo.__init__ 200 9 (Some 5000) (Some 4096)))
             mod 4096).
Proof.
  split; [lia|].
  apply (storage_ignores_head_size
           (PaddingInfo.__init__ 200 9 (Some 5000) (Some 4096)) 5000 4096);
    [reflexivity|reflexivity|lia].
Defined.

Lemma storage_preserves_offset_witness :
  4096 <> 0 /\
  exists r,
    outcome_of (PaddingInfo.get_padding_for_storage
                  (PaddingInfo.__init__ 200 9 (Some 5000) (Some 4096))) =
      Returns r /\
    (5000 + r) mod 4096 = (5000 - -200) mod 4096.
Proof.
  split; [lia|].
  apply (storage_preserves_offset
           (PaddingInfo.__init__ 200 9 (Some 5000) (Some 4096)) 5000 4096);
    [reflexivity|reflexivity|lia].
Defined.

Lemma storage_least_padding_witness :
  0 < 4096 /\
  exists r,
    outcome_of (PaddingInfo.get_padding_for_storage
                  (PaddingInfo.__init__ 200 9 (Some 5000) (Some 4096))) =
      Returns r /\
    0 <= r /\
    (5000 + r) mod 4096 = (5000 - -200) mod 4096 /\
    (forall r',
       0 <= r' ->
       (5000 + r') mod 4096 = (5000 - -200) mod 4096 ->
       r <= r').
Proof.
  split; [lia|].
  apply (storage_least_padding
           (PaddingInfo.__init__ 200 9 (Some 5000) (Some 4096)) 5000 4096);
    [reflexivity|reflexivity|lia].
Defined.

Lemma storage_zero_iff_multiple_witness :
  512 <> 0 /\
  (512 | PaddingInfo.size_diff
           (PaddingInfo.__init__ 1024 9 (Some 77) (Some 512))) /\
  outcome_of (PaddingInfo.get_padding_for_storage
                (PaddingInfo.__init__ 1024 9 (Some 77) (Some 512))) =
    Returns 0.
Proof.
  assert (Hdiv : (512 | PaddingInfo.size_diff
                          (PaddingInfo.__init__ 1024 9 (Some 77) (Some 512))))
    by (exists (-2); reflexivity).
  split; [lia|]. split; [exact Hdiv|].
  apply (proj2 (proj1 (storage_zero_iff_multiple
           (PaddingInfo.__init__ 1024 9 (Some 77) (Some 512)) 77 512
           eq_refl eq_refl ltac:(lia)))).
  exact Hdiv.
Defined.

Lemma storage_negative_block_witness :
  -512 < 0 /\
  exists r,
    outcome_of (PaddingInfo.get_padding_for_storage
                  (PaddingInfo.__init__ 100 9 (Some 77) (Some (-512)))) =
      Returns r /\ -512 < r <= 0.
Proof.
  split; [lia|].
  apply (storage_negative_block
           (PaddingInfo.__init__ 100 9 (Some 77) (Some (-512))) 77 (-512));
    [reflexivity|reflexivity|lia].
Defined.

Lemma storage_keeps_small_padding_witness :
  4096 <> 0 /\ 0 <= 200 < 4096 /\
  outcome_of (PaddingInfo.get_padding_for_storage
                (PaddingInfo.__init__ 200 9 (Some 5000) (Some 4096))) =
    Returns 200.
Proof.
  split; [lia|]. split; [lia|].
  apply (proj2 (storage_keeps_small_padding 200 9 5000 4096 ltac:(lia))).
  lia.
Defined.

(** ** What the sharing strategy keeps *)

Section SharingBounds.

Import PaddingInfo.

Variable p : t.

Local Abbreviation high := (10240 + size p / 100).
Local Abbreviation low := (1024 + size p / 1000).

Lemma sharing_kept :
  0 <= padding p <= high -> get_padding_for_sharing p = padding p.
Proof.
  intros [H0 H1]. rewrite sharing_cases. cbv zeta.
  rewrite (proj2 (Z.leb_le 0 (padding p)) H0).
  rewrite (proj2 (Z.leb_le (padding p) high) H1). reflexivity.
Qed.

Lemma sharing_reset :
  padding p < 0 \/ high < padding p -> get_padding_for_sharing p = low.
Proof.
  intros H. rewrite sharing_cases. cbv zeta.
  destruct H as [H|H].
  - rewrite (proj2 (Z.leb_gt 0 (padding p)) H). reflexivity.
  - rewrite (proj2 (Z.leb_gt (padding p) high) H).
    rewrite andb_false_r. reflexivity.
Qed.

Lemma low_le_high : 0 <= size p -> 1024 <= low <= high.
Proof. intros Hs. Z.div_mod_to_equations. lia. Qed.

Lemma sharing_range :
  0 <= size p -> 0 <= get_padding_for_sharing p <= high.
Proof.
  intros Hs. pose proof (low_le_high Hs) as Hlh.
  destruct (Z_lt_le_dec (padding p) 0) as [Hneg|Hpos].
  - rewrite sharing_reset by (left; exact Hneg). lia.
  - destruct (Z_lt_le_dec high (padding p)) as [Hgt|Hle].
    + rewrite sharing_reset by (right; exact Hgt). lia.
    + rewrite sharing_kept by lia. lia.
Qed.

(** X7: for a non-negative size the sharing strategy never returns more
    than [high], ten KiB plus one percent of the size, and never less than
    the smaller of the existing padding and one KiB. *)
Theorem sharing_at_most_high :
  0 <= size p ->
  get_padding_for_sharing p <= high /\
  Z.min (padding p) 1024 <= get_padding_for_sharing p.
Proof.
  intros Hs. pose proof (low_le_high Hs) as Hlh.
  split; [apply sharing_range; exact Hs|].
  destruct (Z_lt_le_dec (padding p) 0) as [Hneg|Hpos].
  - rewrite sharing_reset by (left; exact Hneg). lia.
  - destruct (Z_lt_le_dec high (padding p)) as [Hgt|Hle].
    + rewrite sharing_reset by (right; exact Hgt). lia.
    + rewrite sharing_kept by lia. lia.
Qed.

(** X8: for a non-negative size the existing padding is kept exactly
    when it lies between 0 and [high]; a larger one is reduced, a
    negative one is raised, in both cases to at least one KiB. *)
Theorem sharing_keeps_iff_in_range :
  0 <= size p ->
  (get_padding_for_sharing p = padding p <-> 0 <= padding p <= high) /\
  (high < padding p ->
   1024 <= get_padding_for_sharing p < padding p) /\
  (padding p < 0 -> 1024 <= get_padding_for_sharing p).
Proof.
  intros Hs. pose proof (low_le_high Hs) as Hlh.
  split; [|split].
  - split; [|apply sharing_kept].
    intros Heq.
    destruct (Z_lt_le_dec (padding p) 0) as [Hneg|Hpos].
    + rewrite sharing_reset in Heq by (left; exact Hneg). lia.
    + destruct (Z_lt_le_dec high (padding p)) as [Hgt|Hle]; [|lia].
      rewrite sharing_reset in Heq by (right; exact Hgt). lia.
  - intros Hgt. rewrite sharing_reset by (right; exact Hgt). lia.
  - intros Hneg. rewrite sharing_reset by (left; exact Hneg). lia.
Qed.

(** X9: the size is not checked: the amount returned is non-negative
    exactly when the existing padding is kept or the size is at least
    -1024000. *)
Theorem sharing_nonnegative_iff :
  0 <= get_padding_for_sharing p <->
  (0 <= padding p <= high) \/ -1024000 <= size p.
Proof.
  assert (Hlow : 0 <= low <-> -1024000 <= size p)
    by (Z.div_mod_to_equations; lia).
  destruct (Z_lt_le_dec (padding p) 0) as [Hneg|Hpos].
  - rewrite sharing_reset by (left; exact Hneg). rewrite Hlow.
    split; [intros H; right; exact H|intros [H|H]; [lia|exact H]].
  - destruct (Z_lt_le_dec high (padding p)) as [Hgt|Hle].
    + rewrite sharing_reset by (right; exact Hgt). rewrite Hlow.
      split; [intros H; right; exact H|intros [H|H]; [lia|exact H]].
    + rewrite sharing_kept by lia.
      split; [intros _; left; lia|intros _; exact Hpos].
Qed.

End SharingBounds.

(** X10: the sharing strategy is stable: an object constructed with the
    amount it returned, for the same non-negative tail size, gets the same
    amount again. *)
Theorem sharing_stable (pad nts : Z) (nhs fbs nhs' fbs' : option Z) :
  0 <= nts ->
  PaddingInfo.get_padding_for_sharing
    (PaddingInfo.__init__
       (PaddingInfo.get_padding_for_sharing
          (PaddingInfo.__init__ pad nts nhs fbs))
       nts nhs' fbs') =
  PaddingInfo.get_padding_for_sharing (PaddingInfo.__init__ pad nts nhs fbs).
Proof.
  intros Hnts.
  pose proof (sharing_range (PaddingInfo.__init__ pad nts nhs fbs) Hnts)
    as Hb.
  set (r := PaddingInfo.get_padding_for_sharing
              (PaddingInfo.__init__ pad nts nhs fbs)) in *.
  rewrite sharing_kept; rewrite init_padding; [reflexivity|].
  rewrite init_size. rewrite init_size in Hb. exact Hb.
Qed.

Lemma sharing_at_most_high_witness :
  0 <= PaddingInfo.size (PaddingInfo.__init__ 70000 1000 None None) /\
  PaddingInfo.get_padding_for_sharing
    (PaddingInfo.__init__ 70000 1000 None None) <= 10240 + 1000 / 100.
Proof.
  split; [simpl; lia|].
  apply (sharing_at_most_high (PaddingInfo.__init__ 70000 1000 None None)).
  simpl; lia.
Defined.

Lemma sharing_keeps_iff_in_range_witness :
  0 <= PaddingInfo.size (PaddingInfo.__init__ 70000 1000 None None) /\
  10240 + 1000 / 100 < 70000 /\
  1024 <= PaddingInfo.get_padding_for_sharing
            (PaddingInfo.__init__ 70000 1000 None None) < 70000.
Proof.
  split; [simpl; lia|]. split; [reflexivity|].
  apply (proj1 (proj2 (sharing_keeps_iff_in_range
           (PaddingInfo.__init__ 70000 1000 None None) ltac:(simpl; lia)))).
  reflexivity.
Defined.

Lemma sharing_nonnegative_iff_witness :
  ~ (-1024000 <= PaddingInfo.size
                   (PaddingInfo.__init__ (-1) (-2000000) None None)) /\
  ~ (0 <= PaddingInfo.get_padding_for_sharing
            (PaddingInfo.__init__ (-1) (-2000000) None None)).
Proof.
  split; [simpl; lia|].
  intros H.
  apply (proj1 (sharing_nonnegative_iff
           (PaddingInfo.__init__ (-1) (-2000000) None None))) in H.
  simpl in H. destruct H as [H|H]; lia.
Defined.

Lemma sharing_stable_witness :
  0 <= 1000 /\
  PaddingInfo.get_padding_for_sharing
    (PaddingInfo.__init__
       (PaddingInfo.get_padding_for_sharing
          (PaddingInfo.__init__ 70000 1000 None None))
       1000 (Some 3) (Some 512)) = 1025.
Proof.
  split; [lia|].
  rewrite (sharing_stable 70000 1000 None None (Some 3) (Some 512)) by lia.
  reflexivity.
Defined.

(** ** The printed form *)

Lemma append_cancel_l (s x y : string) : s +:+ x = s +:+ y -> x = y.
Proof.
  induction s as [|c s IH]; simpl; intros H; [exact H|].
  injection H as H. apply IH. exact H.
Qed.

(** A string is cut at the first occurrence of a character in one way
    only. *)
Lemma split_unique (c : ascii) (a b x y : string) :
  avoids c a -> avoids c b ->
  a +:+ String c x = b +:+ String c y -> a = b /\ x = y.
Proof.
  revert b. induction a as [|ca a IH]; intros b Ha Hb H.
  - destruct b as [|cb b]; simpl in H.
    + injection H as H. split; [reflexivity|exact H].
    + injection H as Hc _. destruct Hb as [Hb _]. congruence.
  - destruct b as [|cb b]; simpl in H.
    + injection H as Hc _. destruct Ha as [Ha _]. congruence.
    + injection H as Hc H. destruct Ha as [_ Ha]. destruct Hb as [_ Hb].
      destruct (IH b Ha Hb H) as [Hab Hxy].
      split; [congruence|exact Hxy].
Qed.

Lemma digits_avoid (c : ascii) (d : Decimal.uint) :
  (c = " " \/ c = ">")%char -> avoids c (NilEmpty.string_of_uint d).
Proof.
  intros Hc. induction d; simpl; try exact I;
    (split; [destruct Hc as [->| ->]; discriminate|assumption]).
Qed.

Lemma format_d_avoids (c : ascii) (z : Z) :
  (c = " " \/ c = ">")%char -> avoids c (PaddingInfo.format_d z).
Proof.
  intros Hc. unfold PaddingInfo.format_d.
  assert (Hu : forall d, avoids c (NilZero.string_of_uint d)).
  { intros d. pose proof (digits_avoid c d Hc) as Hd.
    destruct d; try exact Hd.
    simpl. split; [destruct Hc as [->| ->]; discriminate|exact I]. }
  destruct (Z.to_int z) as [d|d]; simpl.
  - apply Hu.
  - split; [destruct Hc as [->| ->]; discriminate|apply Hu].
Qed.

Lemma format_d_inj (a b : Z) :
  PaddingInfo.format_d a = PaddingInfo.format_d b -> a = b.
Proof.
  unfold PaddingInfo.format_d. intros H.
  assert (Hread : forall z,
    NilZero.int_of_string (NilZero.string_of_int (Z.to_int z)) =
      Some (Z.to_int z)).
  { intros z. apply NilZero.isi; destruct z; simpl; try discriminate;
      intros E; injection E as E;
      exact (DecimalPos.Unsigned.to_uint_nonnil _ E). }
  pose proof (Hread a) as Ha. rewrite H, Hread in Ha.
  injection Ha as Ha.
  rewrite <- (DecimalZ.of_to a), <- (DecimalZ.of_to b). congruence.
Qed.

(** X12: for one class name, two objects are printed alike exactly when
    they have the same [size] and the same [padding]: the printed form
    tells these two attributes apart and shows nothing of the others. *)
Theorem repr_same_iff (type_name : string) (p q : PaddingInfo.t) :
  PaddingInfo.__repr__ type_name p = PaddingInfo.__repr__ type_name q <->
  PaddingInfo.size p = PaddingInfo.size q /\
  PaddingInfo.padding p = PaddingInfo.padding q.
Proof.
  unfold PaddingInfo.__repr__. split.
  - intros H.
    apply (append_cancel_l "<") in H. apply append_cancel_l in H.
    apply (append_cancel_l " size=") in H.
    apply (split_unique " "%char) in H;
      [|apply format_d_avoids; left; reflexivity
       |apply format_d_avoids; left; reflexivity].
    destruct H as [Hs H]. apply (append_cancel_l "padding=") in H.
    apply (split_unique ">"%char) in H;
      [|apply format_d_avoids; right; reflexivity
       |apply format_d_avoids; right; reflexivity].
    destruct H as [Hp _].
    split; apply format_d_inj; assumption.
  - intros [Hs Hp]. rewrite Hs, Hp. reflexivity.
Qed.

Lemma repr_same_iff_witness :
  PaddingInfo.size (PaddingInfo.__init__ 500 200 None None) =
    PaddingInfo.size (PaddingInfo.__init__ 500 200 (Some 3) (Some 512)) /\
  PaddingInfo.padding (PaddingInfo.__init__ 500 200 None None) =
    PaddingInfo.padding (PaddingInfo.__init__ 500 200 (Some 3) (Some 512)) /\
  PaddingInfo.__repr__ "PaddingInfo" (PaddingInfo.__init__ 500 200 None None) =
    PaddingInfo.__repr__ "PaddingInfo"
      (PaddingInfo.__init__ 500 200 (Some 3) (Some 512)).
Proof.
  split; [reflexivity|]. split; [reflexivity|].
  apply (proj2 (repr_same_iff "PaddingInfo"
           (PaddingInfo.__init__ 500 200 None None)
           (PaddingInfo.__init__ 500 200 (Some 3) (Some 512)))).
  split; reflexivity.
Defined.

Example repr_of_constructed :
  PaddingInfo.__repr__ "PaddingInfo" (PaddingInfo.__init__ (-3) 200 None None) =
    "<PaddingInfo size=200 padding=-3>".
Proof. reflexivity. Qed.
